(** * BMI engine of app.py: a shallow embedding and its properties

    The functions of [app.py] (BMI computation, classification,
    recommendation and note derivation, unit conversion, ideal weight
    range, the chart and parts of the script) are embedded as Rocq
    functions.

    Numbers.  The program computes on Python floats, IEEE binary64
    numbers.  [Module Double] embeds the arithmetic of the engine on
    Rocq's primitive binary64 floats, with the exceptions Python raises
    (a zero divisor, a power or an int conversion out of range).
    Comparisons of a finite double with the constants 18.5, 25 and 30
    are exact, so [classify_bmi] takes the number as the rational it
    denotes.  The top-level [convert_height_to_meters] and
    [convert_weight_to_kg] give the conversion formulas in exact
    arithmetic over [Q], with [==] ([Qeq]) between fractions that denote
    the same number; their double versions are in [Module Double].  Ages
    are Python integers ([Z]); optional arguments ([age=None],
    [gender=None]) are [option]s. *)

From Stdlib Require Import QArith ZArith Lia Lqa Floats.
From stdpp Require Import gmap strings list fin_maps.

Local Open Scope Q_scope.
#[local] Set Warnings "-inexact-float".

(** ** Python primitives used by the engine *)

Module Py.

(** The exceptions the arithmetic of the engine can raise. *)
Inductive exn : Set := ZeroDivisionError | OverflowError.

(** Outcome of evaluating a Python expression. *)
Inductive result (A : Type) : Type :=
| Return (a : A)
| Raise (e : exn).
Arguments Return {A} a.
Arguments Raise {A} e.

Definition bind {A B} (r : result A) (k : A -> result B) : result B :=
  match r with
  | Return a => k a
  | Raise e => Raise e
  end.

(** [x < y] on numbers, as a boolean. *)
Definition Qlt_bool (x y : Q) : bool :=
  (Qnum x * QDen y <? Qnum y * QDen x)%Z.

(** [x ** 2] on a float: the square rounded to the nearest double; it
    raises when the square of a finite number is out of range, and an
    underflow gives 0. *)
Definition float_pow2 (x : float) : result float :=
  let r := (x * x)%float in
  if is_infinity r && negb (is_infinity x) then Raise OverflowError
  else Return r.

(** [x / y] on floats: raises on a zero divisor (0.0 or -0.0). *)
Definition float_truediv (x y : float) : result float :=
  if (y =? 0)%float then Raise ZeroDivisionError else Return (x / y)%float.

(** An int as an unrounded binary number. *)
Definition int_as_spec_float (n : Z) : spec_float :=
  match n with
  | Z0 => S754_zero false
  | Zpos p => S754_finite false p 0
  | Zneg p => S754_finite true p 0
  end.

(** The conversion of an int that meets a float in an arithmetic
    operation: the nearest double (ties to even), or an exception when
    the int is too large. *)
Definition float_of_int (n : Z) : result float :=
  match binary_normalize prec emax n 0 false with
  | S754_infinity _ => Raise OverflowError
  | rounded => Return (SF2Prim rounded)
  end.

(** [a / b] on ints: the quotient rounded to the nearest double. *)
Definition int_truediv (a b : Z) : result float :=
  if (b =? 0)%Z then Raise ZeroDivisionError
  else
    match SFdiv prec emax (int_as_spec_float a) (int_as_spec_float b) with
    | S754_infinity _ => Raise OverflowError
    | rounded => Return (SF2Prim rounded)
    end.

(** Truth value of an optional integer: [None] and [0] are falsy. *)
Definition truthy (v : option Z) : bool :=
  match v with
  | None => false
  | Some n => negb (n =? 0)%Z
  end.

(** [v or d] for an optional integer [v] and an integer [d]. *)
Definition or_else (v : option Z) (d : Z) : Z :=
  match v with
  | Some n => if (n =? 0)%Z then d else n
  | None => d
  end.

(** Truth value of [v and test(v)]: the test is only evaluated on a
    truthy [v]. *)
Definition and_then (v : option Z) (test : Z -> bool) : bool :=
  match v with
  | Some n => if truthy v then test n else false
  | None => false
  end.

(** [l.append(x)] on the value of a list. *)
Definition append {A} (l : list A) (x : A) : list A := l ++ [x].

End Py.

#[global] Instance result_ret : MRet Py.result := @Py.Return.
#[global] Instance result_bind : MBind Py.result :=
  fun A B k r => Py.bind r k.

(** ** classify_bmi *)

(** The argument is the number a finite double denotes; the comparisons
    with 18.5, 25 and 30 are exact. *)
Definition classify_bmi (bmi : Q) : string * string :=
  if Py.Qlt_bool bmi 18.5 then
    ("Underweight", "🔵")
  else if Qle_bool 18.5 bmi && Py.Qlt_bool bmi 25 then
    ("Normal weight", "🟢")
  else if Qle_bool 25 bmi && Py.Qlt_bool bmi 30 then
    ("Overweight", "🟡")
  else
    ("Obese", "🔴").

(** ** get_health_recommendations *)

(** The items of the dictionary literal [base_recommendations]. *)
Definition base_recommendations_items : list (string * list string) :=
  [ ("Underweight", [
       "Consult with a healthcare provider to determine underlying causes";
       "Focus on nutrient-dense foods to gain weight healthily";
       "Consider strength training to build muscle mass";
       "Ensure adequate caloric intake for your activity level" ]);
    ("Normal weight", [
       "Maintain your current healthy lifestyle";
       "Continue regular physical activity (150 minutes moderate exercise per week)";
       "Eat a balanced diet rich in fruits, vegetables, and whole grains";
       "Monitor your weight regularly to maintain this healthy range" ]);
    ("Overweight", [
       "Aim for gradual weight loss (1-2 pounds per week)";
       "Increase physical activity to at least 300 minutes per week";
       "Focus on portion control and reducing caloric intake";
       "Consider consulting a nutritionist for personalized advice" ]);
    ("Obese", [
       "Consult with a healthcare provider for a comprehensive weight management plan";
       "Set realistic weight loss goals (5-10% of body weight initially)";
       "Combine dietary changes with regular physical activity";
       "Consider professional support from dietitians or weight loss programs" ]) ].

(** The dictionary, keyed by category. *)
Definition base_recommendations : gmap string (list string) :=
  list_to_map base_recommendations_items.

(** The seven messages of the age and gender blocks, in source order. *)
Definition older_underweight_msg : string :=
  "Older adults may need slightly higher BMI for better health outcomes - discuss with your doctor".
Definition older_normal_msg : string :=
  "Focus on maintaining muscle mass through resistance training and adequate protein intake".
Definition older_heavy_msg : string :=
  "Weight loss for older adults should be supervised by healthcare professionals to preserve muscle mass".
Definition under18_msg : string :=
  "BMI interpretation for individuals under 18 may differ - consult with a pediatrician for appropriate guidance".
Definition female_normal_msg : string :=
  "Women may need additional iron and calcium in their diet - especially during reproductive years".
Definition female_underweight_msg : string :=
  "Underweight in women can affect menstrual health and bone density - consider consulting a healthcare provider".
Definition male_heavy_msg : string :=
  "Men tend to carry more visceral fat, which increases health risks - focus on waist circumference reduction".

(** Value semantics of the body: the list is threaded through its three
    statements (the lookup with its copy, the age block, the gender
    block).  The reference semantics, with the list objects in a store,
    is [Heap.get_health_recommendations] below. *)

(** The block under [# Age-specific adjustments]. *)
Definition age_adjustments
    (category : string) (age : option Z) (recommendations : list string) : list string :=
  match age with
  | Some n =>
      if Py.truthy age then
        if (65 <=? n)%Z then
          if bool_decide (category = "Underweight") then
            Py.append recommendations older_underweight_msg
          else if bool_decide (category = "Normal weight") then
            Py.append recommendations older_normal_msg
          else if bool_decide (category ∈ ["Overweight"; "Obese"]) then
            Py.append recommendations older_heavy_msg
          else recommendations
        else if (n <? 18)%Z then
          Py.append recommendations under18_msg
        else recommendations
      else recommendations
  | None => recommendations
  end.

(** The block under [# Gender-specific adjustments]. *)
Definition gender_adjustments
    (category : string) (gender : option string) (recommendations : list string) : list string :=
  if bool_decide (gender = Some "Female") then
    if bool_decide (category = "Normal weight") then
      Py.append recommendations female_normal_msg
    else if bool_decide (category = "Underweight") then
      Py.append recommendations female_underweight_msg
    else recommendations
  else if bool_decide (gender = Some "Male") then
    if bool_decide (category = "Overweight") || bool_decide (category = "Obese") then
      Py.append recommendations male_heavy_msg
    else recommendations
  else recommendations.

Definition get_health_recommendations
    (category : string) (age : option Z) (gender : option string) : list string :=
  let recommendations := default [] (base_recommendations !! category) in
  let recommendations := age_adjustments category age recommendations in
  let recommendations := gender_adjustments category gender recommendations in
  recommendations.

(** ** get_bmi_interpretation_note *)

Definition older_note : string :=
  "Note: For adults 65+, slightly higher BMI (23-30) may be associated with better health outcomes.".
Definition minor_note : string :=
  "Important: This calculator is designed for adults. BMI interpretation for children and teens requires age and sex-specific percentiles.".
Definition female_note : string :=
  "Note: BMI doesn't account for pregnancy, menstrual cycle variations, or body composition differences.".

Definition get_bmi_interpretation_note
    (bmi : Q) (age : option Z) (gender : option string) : list string :=
  let notes := [] in
  let notes :=
    if Py.and_then age (fun age => (65 <=? age)%Z) then
      Py.append notes older_note
    else notes in
  let notes :=
    if Py.and_then age (fun age => (age <? 18)%Z) then
      Py.append notes minor_note
    else notes in
  let notes :=
    if bool_decide (gender = Some "Female")
       && ((18 <=? Py.or_else age 30)%Z && (Py.or_else age 30 <=? 50)%Z) then
      Py.append notes female_note
    else notes in
  notes.

(** ** Unit conversion

    The conversion formulas in exact arithmetic. *)

Definition convert_height_to_meters (feet inches : Q) (unit_system : string) : Q :=
  if bool_decide (unit_system = "Imperial") then
    let total_inches := feet * 12 + inches in
    total_inches * 0.0254
  else
    feet / 100.

Definition convert_weight_to_kg (weight : Q) (unit_system : string) : Q :=
  if bool_decide (unit_system = "Imperial") then
    weight * 0.453592
  else
    weight.

(** ** The arithmetic of the engine on doubles

    The functions that compute numbers, on the types their callers in
    the script pass: floats for the measurement, ints for feet and
    inches. *)

Module Double.

(** [None] is the Python value [None]; [Some x] is the float [x]. *)
Definition calculate_bmi (weight height : float) : Py.result (option float) :=
  if (height <=? 0)%float || (weight <=? 0)%float then
    Py.Return None
  else
    square ← Py.float_pow2 height;
    bmi ← Py.float_truediv weight square;
    mret (Some bmi).

Definition convert_height_to_meters
    (feet inches : Z) (unit_system : string) : Py.result float :=
  if bool_decide (unit_system = "Imperial") then
    let total_inches := (feet * 12 + inches)%Z in
    total ← Py.float_of_int total_inches;
    mret (total * 0.0254)%float
  else
    Py.int_truediv feet 100.

Definition convert_weight_to_kg (weight : float) (unit_system : string) : float :=
  if bool_decide (unit_system = "Imperial") then
    (weight * 0.453592)%float
  else
    weight.

Definition calculate_ideal_weight_range (height_m : float) : Py.result (float * float) :=
  square ← Py.float_pow2 height_m;
  let min_weight := (18.5 * square)%float in
  square ← Py.float_pow2 height_m;
  let max_weight := (24.9 * square)%float in
  mret (min_weight, max_weight).

(** The double written with one decimal, [k / 10]: the values the
    weight widget steps through. *)
Definition tenths (k : Z) : float :=
  (of_uint63 (Uint63.of_Z k) / 10)%float.

End Double.

(** ** Tables of doubles

    A double is told apart by its exponent and mantissa; a table whose
    keys increase has no two equal entries. *)

Definition float_key (f : float) : Z :=
  let (m, e) := frshiftexp f in
  (Uint63.to_Z e * 2 ^ 53 + Uint63.to_Z (normfr_mantissa m))%Z.

Definition result_key (r : Py.result float) : Z :=
  match r with
  | Py.Return f => float_key f
  | Py.Raise _ => (-1)%Z
  end.

Fixpoint increasing (l : list Z) : bool :=
  match l with
  | x :: (y :: _) as rest => (x <? y)%Z && increasing rest
  | _ => true
  end.

(** ** Reference semantics of get_health_recommendations

    Python lists are objects: a variable holds a reference, [append]
    mutates the object, and [copy] allocates a new one.  The store maps
    references to the contents of the list objects. *)

Module Heap.

Abbreviation store := (gmap nat (list string)).

Definition M (A : Type) : Type := store -> A * store.

#[global] Instance M_ret : MRet M := fun A a h => (a, h).
#[global] Instance M_bind : MBind M :=
  fun A B k m h => let '(a, h') := m h in k a h'.

(** A list display [[x1, ..., xn]]: a new object. *)
Definition alloc (v : list string) : M nat :=
  fun h => let l := fresh (dom h) in (l, <[l := v]> h).

(** [l.copy()]: a new object with the contents of [l]. *)
Definition copy (l : nat) : M nat :=
  fun h => alloc (default [] (h !! l)) h.

(** [l.append(x)]: the object [l] is updated in place. *)
Definition append (l : nat) (x : string) : M unit :=
  fun h => (tt, alter (fun v => Py.append v x) l h).

Definition skip : M unit := mret tt.

(** A dictionary display whose values are list displays: one object
    per value, the dictionary holds the references. *)
Fixpoint dict_display (items : list (string * list string)) : M (gmap string nat) :=
  match items with
  | [] => mret ∅
  | (k, v) :: items =>
      l ← alloc v;
      d ← dict_display items;
      mret (<[k := l]> d)
  end.

Definition age_adjustments
    (category : string) (age : option Z) (recommendations : nat) : M unit :=
  match age with
  | Some n =>
      if Py.truthy age then
        if (65 <=? n)%Z then
          if bool_decide (category = "Underweight") then
            append recommendations older_underweight_msg
          else if bool_decide (category = "Normal weight") then
            append recommendations older_normal_msg
          else if bool_decide (category ∈ ["Overweight"; "Obese"]) then
            append recommendations older_heavy_msg
          else skip
        else if (n <? 18)%Z then
          append recommendations under18_msg
        else skip
      else skip
  | None => skip
  end.

Definition gender_adjustments
    (category : string) (gender : option string) (recommendations : nat) : M unit :=
  if bool_decide (gender = Some "Female") then
    if bool_decide (category = "Normal weight") then
      append recommendations female_normal_msg
    else if bool_decide (category = "Underweight") then
      append recommendations female_underweight_msg
    else skip
  else if bool_decide (gender = Some "Male") then
    if bool_decide (category = "Overweight") || bool_decide (category = "Obese") then
      append recommendations male_heavy_msg
    else skip
  else skip.

(** The body after the dictionary display.  The default [[]] of
    [.get] is built whether or not the key is found. *)
Definition recommend
    (base_recommendations : gmap string nat)
    (category : string) (age : option Z) (gender : option string) : M nat :=
  empty ← alloc [];
  recommendations ← copy (default empty (base_recommendations !! category));
  age_adjustments category age recommendations;;
  gender_adjustments category gender recommendations;;
  mret recommendations.

Definition get_health_recommendations
    (category : string) (age : option Z) (gender : option string) : M nat :=
  base_recommendations ← dict_display base_recommendations_items;
  recommend base_recommendations category age gender.

End Heap.

(** ** The specification's reading of the engine *)

Module Spec.

(** The closed set of categories. *)
Inductive Category : Set := Underweight | NormalWeight | Overweight | Obese.

Definition name (c : Category) : string :=
  match c with
  | Underweight => "Underweight"
  | NormalWeight => "Normal weight"
  | Overweight => "Overweight"
  | Obese => "Obese"
  end.

(** The names of the four categories. *)
Definition known_categories : list string :=
  ["Underweight"; "Normal weight"; "Overweight"; "Obese"].

(** The fixed base list of a category. *)
Definition base (c : Category) : list string :=
  default [] (base_recommendations !! name c).

(** Age branch: one message when age >= 65, chosen by category; one
    generic message when age < 18. *)
Definition age_entries (c : Category) (age : option Z) : list string :=
  match age with
  | Some a =>
      if (65 <=? a)%Z then
        match c with
        | Underweight => [older_underweight_msg]
        | NormalWeight => [older_normal_msg]
        | Overweight | Obese => [older_heavy_msg]
        end
      else if (a <? 18)%Z then [under18_msg]
      else []
  | None => []
  end.

(** Gender branch: Female has one message for Normal weight or
    Underweight, Male has one message for Overweight or Obese. *)
Definition gender_entries (c : Category) (gender : option string) : list string :=
  if bool_decide (gender = Some "Female") then
    match c with
    | NormalWeight => [female_normal_msg]
    | Underweight => [female_underweight_msg]
    | Overweight | Obese => []
    end
  else if bool_decide (gender = Some "Male") then
    match c with
    | Overweight | Obese => [male_heavy_msg]
    | Underweight | NormalWeight => []
    end
  else [].

(** deriveRecommendations: base entries, then the age branch, then the
    gender branch. *)
Definition deriveRecommendations
    (c : Category) (age : option Z) (gender : option string) : list string :=
  base c ++ age_entries c age ++ gender_entries c gender.

(** deriveInterpretationNotes: three independent notes, gated on
    age >= 65, on age < 18, and on Female with age in [18,50], where an
    absent age counts as 30 for the last gate only. *)
Definition deriveInterpretationNotes
    (age : option Z) (gender : option string) : list string :=
  (match age with
   | Some a => if (65 <=? a)%Z then [older_note] else []
   | None => []
   end)
  ++ (match age with
      | Some a => if (a <? 18)%Z then [minor_note] else []
      | None => []
      end)
  ++ (if bool_decide (gender = Some "Female"
                      /\ (18 <= default 30%Z age <= 50)%Z)
      then [female_note] else []).

(** An age of 0 read as an absent age. *)
Definition present_age (age : option Z) : option Z :=
  match age with
  | Some 0%Z => None
  | _ => age
  end.

End Spec.

(** ** Parts of the calculator tab of the script

    The arguments the script passes to the engine for the age and gender
    widgets, and the loop that prints the BMI scale. *)

Module App.

(** [age if age > 0 else None] *)
Definition age_val (age : Z) : option Z :=
  if (0 <? age)%Z then Some age else None.

(** [gender if gender else None]: the empty string is falsy. *)
Definition gender_val (gender : string) : option string :=
  if bool_decide (gender = "") then None else Some gender.

(** The items of the dictionary [scale_data], with the ["range"] entry
    of each (the ["color"] entry is not read). *)
Definition scale_data : list (string * string) :=
  [ ("Underweight", "< 18.5");
    ("Normal weight", "18.5 - 24.9");
    ("Overweight", "25.0 - 29.9");
    ("Obese", "≥ 30.0") ].

(** The two lines of the BMI scale. *)
Definition marked_row (cat range : string) : string :=
  String.append "**→ " (String.append cat (String.append "**: "
    (String.append range " ← *You are here*"))).

Definition plain_row (cat range : string) : string :=
  String.append cat (String.append ": " range).

(** The loop over [scale_data.items()]. *)
Definition scale_rows (category : string) : list string :=
  map (fun '(cat, range) =>
         if bool_decide (cat = category) then marked_row cat range
         else plain_row cat range)
      scale_data.

End App.

(** ** create_bmi_chart

    The figure is the record of what the calls put into it: the shapes
    in the order of the [add_shape] calls, the traces in the order of the
    [add_trace] calls, and the layout entries.  The history frame is the
    list of its rows, reduced to the two columns the chart reads; the
    clock reading of [datetime.now()] is an argument. *)

Module Chart.

Record shape : Type := {
  type_ : string;
  x0 : Q;
  x1 : Q;
  y0 : Q;
  y1 : Q;
  fillcolor : string;
  opacity : Q;
  line_width : Z;
  xref : string
}.

Record trace : Type := {
  x : list Z;
  y : list Q;
  mode : string;
  name : string;
  line : option (string * Z);
  marker_size : Z;
  marker_color : option string;
  marker_symbol : option string
}.

Record figure : Type := {
  shapes : list shape;
  data : list trace;
  title : option string;
  xaxis_title : option string;
  yaxis_title : option string;
  yaxis_range : option (Q * Q);
  height : option Z
}.

(** [go.Figure()] *)
Definition empty_figure : figure :=
  {| shapes := []; data := []; title := None; xaxis_title := None;
     yaxis_title := None; yaxis_range := None; height := None |}.

Definition add_shape (fig : figure) (s : shape) : figure :=
  {| shapes := shapes fig ++ [s]; data := data fig; title := title fig;
     xaxis_title := xaxis_title fig; yaxis_title := yaxis_title fig;
     yaxis_range := yaxis_range fig; height := height fig |}.

Definition add_trace (fig : figure) (t : trace) : figure :=
  {| shapes := shapes fig; data := data fig ++ [t]; title := title fig;
     xaxis_title := xaxis_title fig; yaxis_title := yaxis_title fig;
     yaxis_range := yaxis_range fig; height := height fig |}.

(** A background rectangle across the whole width of the plot. *)
Definition band (y0 y1 : Q) (fillcolor : string) : shape :=
  {| type_ := "rect"; x0 := 0; x1 := 1; y0 := y0; y1 := y1;
     fillcolor := fillcolor; opacity := 0.2; line_width := 0; xref := "paper" |}.

Definition create_bmi_chart
    (now : Z) (current_bmi : Q) (bmi_history_df : list (Z * Q)) : figure :=
  let fig := empty_figure in
  (* BMI categories background using shapes *)
  let fig := add_shape fig (band 0 18.5 "lightblue") in
  let fig := add_shape fig (band 18.5 25 "lightgreen") in
  let fig := add_shape fig (band 25 30 "lightyellow") in
  let fig := add_shape fig (band 30 45 "lightcoral") in
  (* Add history line if available *)
  let fig :=
    match bmi_history_df with
    | [] => fig
    | _ :: _ =>
        add_trace fig
          {| x := map fst bmi_history_df;
             y := map snd bmi_history_df;
             mode := "lines+markers";
             name := "BMI History";
             line := Some ("blue", 2%Z);
             marker_size := 6;
             marker_color := None;
             marker_symbol := None |}
    end in
  (* Add current BMI point *)
  let fig :=
    add_trace fig
      {| x := [now];
         y := [current_bmi];
         mode := "markers";
         name := "Current BMI";
         line := None;
         marker_size := 12;
         marker_color := Some "red";
         marker_symbol := Some "star" |} in
  {| shapes := shapes fig; data := data fig;
     title := Some "BMI Tracking Chart";
     xaxis_title := Some "Date";
     yaxis_title := Some "BMI Value";
     yaxis_range := Some (15, 45);
     height := Some 400%Z |}.

End Chart.

(** ** Order of the categories *)

(** Position of a category name in the scale, lightest first. *)
Definition category_rank (category : string) : nat :=
  if bool_decide (category = "Underweight") then 0
  else if bool_decide (category = "Normal weight") then 1
  else if bool_decide (category = "Overweight") then 2
  else 3.

(** * Properties *)

(** ** Facts about the primitives *)

Lemma Qlt_bool_iff (x y : Q) : Py.Qlt_bool x y = true <-> x < y.
Proof. unfold Py.Qlt_bool, Qlt. apply Z.ltb_lt. Qed.

Lemma Qlt_bool_false_iff (x y : Q) : Py.Qlt_bool x y = false <-> y <= x.
Proof. unfold Py.Qlt_bool, Qle. rewrite Z.ltb_ge. reflexivity. Qed.

Lemma Qle_bool_false_iff (x y : Q) : Qle_bool x y = false <-> y < x.
Proof.
  rewrite <- Bool.not_true_iff_false, Qle_bool_iff.
  split; [apply Qnot_le_lt | apply Qlt_not_le].
Qed.

(** ** C2 *)

(** Turns the boolean tests of the goal into the order facts at hand. *)
Ltac settle_tests :=
  repeat match goal with
    | |- context [Py.Qlt_bool ?x ?y] =>
        first [ rewrite (proj2 (Qlt_bool_iff x y)) by lra
              | rewrite (proj2 (Qlt_bool_false_iff x y)) by lra ]
    | |- context [Qle_bool ?x ?y] =>
        first [ rewrite (proj2 (Qle_bool_iff x y)) by lra
              | rewrite (proj2 (Qle_bool_false_iff x y)) by lra ]
    end.

(** C2. For every bmi (in particular every positive one), [classify_bmi]
    returns the category Underweight when bmi < 18.5, Normal weight when
    18.5 <= bmi < 25, Overweight when 25 <= bmi < 30 and Obese when
    bmi >= 30; the boundaries 18.5, 25 and 30 belong to the upper
    bracket. *)
Theorem classify_bmi_thresholds :
  (forall bmi : Q,
      (bmi < 18.5 -> (classify_bmi bmi).1 = "Underweight")
      /\ (18.5 <= bmi < 25 -> (classify_bmi bmi).1 = "Normal weight")
      /\ (25 <= bmi < 30 -> (classify_bmi bmi).1 = "Overweight")
      /\ (30 <= bmi -> (classify_bmi bmi).1 = "Obese"))
  /\ (classify_bmi 18.5).1 = "Normal weight"
  /\ (classify_bmi 25).1 = "Overweight"
  /\ (classify_bmi 30).1 = "Obese".
Proof.
  split; [| split; [| split]; reflexivity].
  intros bmi. unfold classify_bmi.
  split; [| split; [| split]].
  - intros Hhi. settle_tests. reflexivity.
  - intros [Hlo Hhi]. settle_tests. reflexivity.
  - intros [Hlo Hhi]. settle_tests. reflexivity.
  - intros Hlo. settle_tests. reflexivity.
Qed.

Lemma classify_bmi_thresholds_witness :
  (classify_bmi 17).1 = "Underweight"
  /\ (classify_bmi 22).1 = "Normal weight"
  /\ (classify_bmi 27).1 = "Overweight"
  /\ (classify_bmi 35).1 = "Obese".
Proof.
  split; [| split; [| split]].
  - apply (proj1 classify_bmi_thresholds 17). reflexivity.
  - apply (proj1 classify_bmi_thresholds 22).
    split; [unfold Qle; simpl; lia | reflexivity].
  - apply (proj1 classify_bmi_thresholds 27).
    split; [unfold Qle; simpl; lia | reflexivity].
  - apply (proj1 classify_bmi_thresholds 35). unfold Qle; simpl; lia.
Defined.

(** The boundary table of the specification, on both sides of each
    threshold. *)
Example classify_bmi_boundaries :
  map (fun bmi => (classify_bmi bmi).1) [18.4999; 18.5; 24.9999; 25; 29.9999; 30]
  = ["Underweight"; "Normal weight"; "Normal weight"; "Overweight"; "Overweight"; "Obese"].
Proof. reflexivity. Qed.

(** ** C5, C6: unit conversion *)

(** Any unit system other than ["Imperial"] takes the metric branch. *)
Lemma convert_height_metric_branch (feet inches : Q) (unit_system : string) :
  unit_system <> "Imperial" ->
  convert_height_to_meters feet inches unit_system = feet / 100.
Proof.
  intros Hne. unfold convert_height_to_meters.
  rewrite bool_decide_eq_false_2 by assumption. reflexivity.
Qed.

(** Refutes C5 as stated: under Metric the height handed in is not
    returned unchanged, 170 (centimetres) comes back as 1.7. *)
Lemma metric_height_not_identity :
  convert_height_to_meters 170 0 "Metric" == 1.7
  /\ ~ convert_height_to_meters 170 0 "Metric" == 170.
Proof. split; [reflexivity | discriminate]. Qed.

(** C5 (amended). Under the Metric unit system [convert_weight_to_kg]
    returns the weight unchanged, and [convert_height_to_meters] returns
    its first argument, read as centimetres, divided by 100; the second
    argument is ignored. *)
Theorem metric_conversions (feet inches weight : Q) :
  convert_height_to_meters feet inches "Metric" = feet / 100
  /\ convert_weight_to_kg weight "Metric" = weight.
Proof. split; reflexivity. Qed.

(** C6. Under the Imperial unit system the height is
    (feet*12 + inches) * 0.0254 and the weight is weight * 0.453592; in
    exact arithmetic 5 ft 8 in is 1.7272 m and 154 lb is 69.853168 kg. *)
Theorem imperial_conversions :
  (forall feet inches : Q,
      convert_height_to_meters feet inches "Imperial" = (feet * 12 + inches) * 0.0254)
  /\ (forall weight : Q,
         convert_weight_to_kg weight "Imperial" = weight * 0.453592)
  /\ convert_height_to_meters 5 8 "Imperial" == 1.7272
  /\ convert_weight_to_kg 154 "Imperial" == 69.853168.
Proof. split; [| split; [| split]]; reflexivity. Qed.

(** ** Facts about doubles *)

Lemma positive_not_nonpositive (x : float) :
  (0 <? x)%float = true -> (x <=? 0)%float = false.
Proof.
  rewrite ltb_spec, leb_spec.
  change (Prim2SF 0) with (S754_zero false).
  destruct (Prim2SF x) as [s | s | | s m e]; try destruct s;
    cbv [SFltb SFleb SFcompare]; congruence.
Qed.

Lemma increasing_head (x : Z) (l : list Z) :
  increasing (x :: l) = true -> forall j y, l !! j = Some y -> (x < y)%Z.
Proof.
  revert x. induction l as [| z l IH]; intros x Hinc j y Hy.
  - rewrite lookup_nil in Hy. discriminate Hy.
  - simpl in Hinc. apply andb_true_iff in Hinc as [Hxz Hrest].
    apply Z.ltb_lt in Hxz. destruct j as [| j]; simpl in Hy.
    + injection Hy as <-. exact Hxz.
    + pose proof (IH z Hrest j y Hy). lia.
Qed.

Lemma increasing_tail (x : Z) (l : list Z) :
  increasing (x :: l) = true -> increasing l = true.
Proof.
  destruct l as [| y l]; [reflexivity |].
  simpl. intros H. apply andb_true_iff in H. tauto.
Qed.

Lemma increasing_lookup (l : list Z) :
  increasing l = true ->
  forall i j x y, (i < j)%nat -> l !! i = Some x -> l !! j = Some y -> (x < y)%Z.
Proof.
  induction l as [| z l IH]; intros Hinc i j x y Hij Hx Hy.
  - rewrite lookup_nil in Hx. discriminate Hx.
  - destruct j as [| j]; [lia |]. simpl in Hy.
    destruct i as [| i]; simpl in Hx.
    + injection Hx as <-. apply (increasing_head z l Hinc j y Hy).
    + apply (IH (increasing_tail z l Hinc) i j x y); [lia | assumption | assumption].
Qed.

(** A function whose table of keys over an interval increases takes no
    value twice on the interval. *)
Lemma table_injective (g : Z -> Z) (lo n : Z) :
  increasing (g <$> seqZ lo n) = true ->
  forall k1 k2, (lo <= k1 < lo + n)%Z -> (lo <= k2 < lo + n)%Z ->
                g k1 = g k2 -> k1 = k2.
Proof.
  intros Hinc k1 k2 H1 H2 Hg.
  assert (Hlook : forall k, (lo <= k < lo + n)%Z ->
            (g <$> seqZ lo n) !! Z.to_nat (k - lo) = Some (g k)).
  { intros k Hk. rewrite list_lookup_fmap, lookup_seqZ_lt by lia.
    simpl. f_equal. f_equal. lia. }
  destruct (Z.lt_trichotomy k1 k2) as [Hlt | [Heq | Hgt]]; [| exact Heq |].
  - pose proof (increasing_lookup _ Hinc (Z.to_nat (k1 - lo)) (Z.to_nat (k2 - lo))
                  (g k1) (g k2) ltac:(lia) (Hlook k1 H1) (Hlook k2 H2)). lia.
  - pose proof (increasing_lookup _ Hinc (Z.to_nat (k2 - lo)) (Z.to_nat (k1 - lo))
                  (g k2) (g k1) ltac:(lia) (Hlook k2 H2) (Hlook k1 H1)). lia.
Qed.

(** The primitives on the values used below, against Python's results. *)
Example float_primitives :
  Py.float_pow2 1.7 = Py.Return 2.8899999999999997%float
  /\ Py.float_pow2 0x1p-600 = Py.Return 0%float
  /\ Py.float_pow2 0x1p600 = Py.Raise Py.OverflowError
  /\ Py.float_pow2 infinity = Py.Return infinity
  /\ Py.float_truediv 1 (-0) = Py.Raise Py.ZeroDivisionError
  /\ Py.float_of_int (2 ^ 53 + 1) = Py.Return 9007199254740992%float
  /\ Py.float_of_int (2 ^ 53 + 3) = Py.Return 9007199254740996%float
  /\ Py.float_of_int (10 ^ 400) = Py.Raise Py.OverflowError
  /\ Py.int_truediv 170 100 = Py.Return 1.7%float
  /\ Py.int_truediv (10 ^ 400) 100 = Py.Raise Py.OverflowError.
Proof. vm_compute. repeat split. Qed.

(** ** C1: calculate_bmi on doubles *)




(** ** C7: calculate_ideal_weight_range on doubles *)




(** ** C8: injectivity of the imperial conversions on doubles *)

(** Refutes C8 as stated: two distinct weights inside the range of the
    weight widget convert to the same double, and 5 ft 12 in and
    6 ft 0 in are distinct pairs with the same height in meters. *)
Lemma imperial_conversions_collide :
  (150.00000000000023 =? 150.00000000000026)%float = false
  /\ Double.convert_weight_to_kg 150.00000000000023 "Imperial"
     = Double.convert_weight_to_kg 150.00000000000026 "Imperial"
  /\ Double.convert_height_to_meters 5 12 "Imperial"
     = Double.convert_height_to_meters 6 0 "Imperial"
  /\ (5%Z, 12%Z) <> (6%Z, 0%Z).
Proof.
  split; [reflexivity |]. split; [reflexivity |]. split; [reflexivity |].
  discriminate.
Qed.

Lemma weights_table :
  increasing ((fun k => float_key (Double.convert_weight_to_kg (Double.tenths k) "Imperial"))
                <$> seqZ 440 6161) = true.
Proof. vm_compute. reflexivity. Qed.

Lemma heights_table :
  increasing ((fun t => result_key (Double.convert_height_to_meters 0 t "Imperial"))
                <$> seqZ 12 96) = true.
Proof. vm_compute. reflexivity. Qed.

Lemma convert_height_total_inches (feet inches : Z) :
  Double.convert_height_to_meters feet inches "Imperial"
  = Double.convert_height_to_meters 0 (feet * 12 + inches) "Imperial".
Proof.
  unfold Double.convert_height_to_meters.
  rewrite !bool_decide_eq_true_2 by reflexivity.
  replace (0 * 12 + (feet * 12 + inches))%Z with (feet * 12 + inches)%Z by lia.
  reflexivity.
Qed.

(** C8 (amended). On the values the interface offers the imperial
    conversions are injective on doubles: distinct weights written with
    one decimal from 44.0 to 660.0 pounds map to distinct kilogram
    values, and distinct (feet, inches) pairs with 1 to 8 feet and 0 to
    11 inches map to distinct meter values. *)
Theorem imperial_conversions_injective_on_widgets :
  (forall k1 k2 : Z,
      (440 <= k1 <= 6600)%Z -> (440 <= k2 <= 6600)%Z ->
      Double.convert_weight_to_kg (Double.tenths k1) "Imperial"
      = Double.convert_weight_to_kg (Double.tenths k2) "Imperial" ->
      k1 = k2)
  /\ (forall f1 i1 f2 i2 : Z,
         (1 <= f1 <= 8)%Z -> (0 <= i1 <= 11)%Z ->
         (1 <= f2 <= 8)%Z -> (0 <= i2 <= 11)%Z ->
         Double.convert_height_to_meters f1 i1 "Imperial"
         = Double.convert_height_to_meters f2 i2 "Imperial" ->
         f1 = f2 /\ i1 = i2).
Proof.
  split.
  - intros k1 k2 H1 H2 Heq.
    apply (table_injective _ 440 6161 weights_table k1 k2); [lia | lia |].
    simpl. rewrite Heq. reflexivity.
  - intros f1 i1 f2 i2 Hf1 Hi1 Hf2 Hi2 Heq.
    rewrite (convert_height_total_inches f1 i1),
      (convert_height_total_inches f2 i2) in Heq.
    assert (Ht : (f1 * 12 + i1 = f2 * 12 + i2)%Z).
    { apply (table_injective _ 12 96 heights_table); [lia | lia |].
      simpl. rewrite Heq. reflexivity. }
    lia.
Qed.

Lemma imperial_conversions_injective_on_widgets_witness :
  1540%Z = 1540%Z /\ (5%Z = 5%Z /\ 8%Z = 8%Z).
Proof.
  destruct imperial_conversions_injective_on_widgets as [Hw Hh].
  split.
  - apply (Hw 1540%Z 1540%Z); [lia | lia | reflexivity].
  - apply (Hh 5%Z 8%Z 5%Z 8%Z); [lia | lia | lia | lia | reflexivity].
Defined.

(** ** C3: layout of the recommendations *)

Lemma truthy_nonzero (n : Z) : n <> 0%Z -> Py.truthy (Some n) = true.
Proof. intros Hn. unfold Py.truthy. apply negb_true_iff, Z.eqb_neq, Hn. Qed.

Lemma present_age_nonzero (n : Z) : n <> 0%Z -> Spec.present_age (Some n) = Some n.
Proof. intros Hn. destruct n; [contradiction | reflexivity | reflexivity]. Qed.

Lemma base_length (c : Spec.Category) : length (Spec.base c) = 4%nat.
Proof. destruct c; reflexivity. Qed.

Lemma base_lookup (c : Spec.Category) :
  base_recommendations !! Spec.name c = Some (Spec.base c).
Proof. destruct c; reflexivity. Qed.

(** The age block appends the age branch of the specification, once an
    age of 0 is read as absent. *)
Lemma age_adjustments_spec (c : Spec.Category) (age : option Z) (recs : list string) :
  age_adjustments (Spec.name c) age recs
  = recs ++ Spec.age_entries c (Spec.present_age age).
Proof.
  destruct age as [n |]; [| symmetry; apply app_nil_r].
  destruct (decide (n = 0%Z)) as [-> | Hn]; [symmetry; apply app_nil_r |].
  unfold age_adjustments.
  rewrite (truthy_nonzero n Hn), (present_age_nonzero n Hn).
  unfold Spec.age_entries, Py.append.
  destruct (65 <=? n)%Z; [destruct c; reflexivity |].
  destruct (n <? 18)%Z; [reflexivity | symmetry; apply app_nil_r].
Qed.

(** The gender block appends the gender branch of the specification. *)
Lemma gender_adjustments_spec (c : Spec.Category) (gender : option string) (recs : list string) :
  gender_adjustments (Spec.name c) gender recs = recs ++ Spec.gender_entries c gender.
Proof.
  unfold gender_adjustments, Spec.gender_entries, Py.append.
  destruct (bool_decide (gender = Some "Female")).
  - destruct c; first [reflexivity | symmetry; apply app_nil_r].
  - destruct (bool_decide (gender = Some "Male")).
    + destruct c; first [reflexivity | symmetry; apply app_nil_r].
    + symmetry; apply app_nil_r.
Qed.

(** Refutes C3 as stated: 0 < 18, yet with age 0 the generic under-18
    message is not appended; the result is the bare base list. *)
Lemma recommendations_age_zero_no_under18 :
  (0 < 18)%Z
  /\ get_health_recommendations "Normal weight" (Some 0%Z) None
     = Spec.base Spec.NormalWeight
  /\ get_health_recommendations "Normal weight" (Some 0%Z) None
     <> Spec.deriveRecommendations Spec.NormalWeight (Some 0%Z) None.
Proof. split; [lia | split; [reflexivity | discriminate]]. Qed.

(** C3 (amended). For each of the four categories and every optional
    age and gender, where an age of 0 counts as absent, the result is
    the 4 base entries of the category, then the age-branch entry (one
    message chosen by category when age >= 65, one generic message when
    age < 18), then the gender-branch entry (Female: Normal weight or
    Underweight; Male: Overweight or Obese).  The two branches fire
    independently, so the length is 4 plus one per branch that fires;
    for Normal weight, age 70, Female the result has length 6 and ends
    with the muscle-mass message followed by the iron-calcium message. *)
Theorem get_health_recommendations_layout :
  (forall (c : Spec.Category) (age : option Z) (gender : option string),
      length (Spec.base c) = 4%nat
      /\ get_health_recommendations (Spec.name c) age gender
         = Spec.base c
             ++ Spec.age_entries c (Spec.present_age age)
             ++ Spec.gender_entries c gender
      /\ length (get_health_recommendations (Spec.name c) age gender)
         = (4 + length (Spec.age_entries c (Spec.present_age age))
              + length (Spec.gender_entries c gender))%nat
      /\ (length (Spec.age_entries c (Spec.present_age age)) <= 1)%nat
      /\ (length (Spec.gender_entries c gender) <= 1)%nat)
  /\ get_health_recommendations "Normal weight" (Some 70%Z) (Some "Female")
     = Spec.base Spec.NormalWeight ++ [older_normal_msg; female_normal_msg]
  /\ length (get_health_recommendations "Normal weight" (Some 70%Z) (Some "Female"))
     = 6%nat.
Proof.
  split; [| split; reflexivity].
  intros c age gender.
  assert (Hlayout : get_health_recommendations (Spec.name c) age gender
                    = Spec.base c
                        ++ Spec.age_entries c (Spec.present_age age)
                        ++ Spec.gender_entries c gender).
  { unfold get_health_recommendations.
    rewrite gender_adjustments_spec, age_adjustments_spec, base_lookup.
    simpl default. symmetry. apply (assoc_L (++)). }
  split; [apply base_length |]. split; [exact Hlayout |].
  split; [| split].
  - rewrite Hlayout, !length_app, base_length. lia.
  - unfold Spec.age_entries.
    destruct (Spec.present_age age) as [a |]; [| simpl; lia].
    destruct (65 <=? a)%Z; [destruct c; simpl; lia |].
    destruct (a <? 18)%Z; simpl; lia.
  - unfold Spec.gender_entries.
    repeat case_bool_decide; destruct c; simpl; lia.
Qed.

(** ** C4: interpretation notes *)

Lemma and_then_present (age : option Z) (test : Z -> bool) :
  Py.and_then age test
  = match Spec.present_age age with
    | Some a => test a
    | None => false
    end.
Proof.
  destruct age as [n |]; [| reflexivity].
  destruct (decide (n = 0%Z)) as [-> | Hn]; [reflexivity |].
  unfold Py.and_then.
  rewrite (truthy_nonzero n Hn), (present_age_nonzero n Hn). reflexivity.
Qed.

Lemma or_else_present (age : option Z) (d : Z) :
  Py.or_else age d = default d (Spec.present_age age).
Proof.
  destruct age as [n |]; [| reflexivity].
  destruct (decide (n = 0%Z)) as [-> | Hn]; [reflexivity |].
  rewrite (present_age_nonzero n Hn). unfold Py.or_else.
  rewrite (proj2 (Z.eqb_neq n 0) Hn). reflexivity.
Qed.

Lemma female_gate (gender : option string) (a : Z) :
  bool_decide (gender = Some "Female") && ((18 <=? a)%Z && (a <=? 50)%Z)
  = bool_decide (gender = Some "Female" /\ (18 <= a <= 50)%Z).
Proof.
  apply Bool.eq_iff_eq_true.
  rewrite !andb_true_iff, !bool_decide_eq_true, !Z.leb_le. reflexivity.
Qed.

(** Refutes C4 as stated: with age 0 (present, below 18, outside
    [18,50]) and Female, the under-18 note is missing and the
    pregnancy/menstrual-cycle note is there. *)
Lemma notes_age_zero_female :
  (0 < 18)%Z /\ ~ (18 <= 0 <= 50)%Z
  /\ get_bmi_interpretation_note 22 (Some 0%Z) (Some "Female") = [female_note]
  /\ Spec.deriveInterpretationNotes (Some 0%Z) (Some "Female") = [minor_note]
  /\ get_bmi_interpretation_note 22 (Some 0%Z) (Some "Female")
     <> Spec.deriveInterpretationNotes (Some 0%Z) (Some "Female").
Proof.
  split; [lia |]. split; [lia |].
  split; [reflexivity |]. split; [reflexivity | discriminate].
Qed.

(** C4 (amended). With an age of 0 counting as absent,
    [get_bmi_interpretation_note] returns up to three independent notes,
    gated on age >= 65, on age < 18, and on Female with age in [18,50]
    where an absent age is taken as 30 for this last gate only: bmi 22,
    no age, Female yields the pregnancy/menstrual-cycle note, and an
    absent age fires neither of the two age-gated notes. *)
Theorem get_bmi_interpretation_note_gates :
  (forall (bmi : Q) (age : option Z) (gender : option string),
      get_bmi_interpretation_note bmi age gender
      = Spec.deriveInterpretationNotes (Spec.present_age age) gender
      /\ (length (get_bmi_interpretation_note bmi age gender) <= 3)%nat)
  /\ In female_note (get_bmi_interpretation_note 22 None (Some "Female"))
  /\ (forall (bmi : Q) (gender : option string),
         ~ In older_note (get_bmi_interpretation_note bmi None gender)
         /\ ~ In minor_note (get_bmi_interpretation_note bmi None gender)).
Proof.
  assert (Hnotes : forall bmi age gender,
             get_bmi_interpretation_note bmi age gender
             = Spec.deriveInterpretationNotes (Spec.present_age age) gender).
  { intros bmi age gender.
    unfold get_bmi_interpretation_note, Spec.deriveInterpretationNotes, Py.append.
    rewrite !and_then_present, !or_else_present, female_gate.
    destruct (Spec.present_age age) as [a |]; simpl default;
      repeat match goal with
        | |- context [if ?b then _ else _] => destruct b
        end; reflexivity. }
  split; [| split].
  - intros bmi age gender. split; [apply Hnotes |].
    rewrite Hnotes. unfold Spec.deriveInterpretationNotes.
    rewrite !length_app.
    destruct (Spec.present_age age) as [a |];
      repeat match goal with
        | |- context [if ?b then _ else _] => destruct b
        end; simpl; lia.
  - left. reflexivity.
  - intros bmi gender. rewrite Hnotes. unfold Spec.deriveInterpretationNotes.
    simpl. destruct (bool_decide _); simpl; split; intros H;
      repeat destruct H as [H | H]; solve [discriminate H | destruct H].
Qed.

(** ** Categories outside the table *)

Lemma known_category_name (category : string) :
  category ∈ Spec.known_categories <-> exists c, category = Spec.name c.
Proof.
  unfold Spec.known_categories. rewrite !elem_of_cons, elem_of_nil. split.
  - intros [-> | [-> | [-> | [-> | []]]]];
      [exists Spec.Underweight | exists Spec.NormalWeight
       | exists Spec.Overweight | exists Spec.Obese]; reflexivity.
  - intros [[] ->]; simpl; tauto.
Qed.

Section Unknown.

Variable category : string.
Hypothesis Hunknown : category ∉ Spec.known_categories.

Lemma unknown_neq (c : Spec.Category) : category <> Spec.name c.
Proof. intros E. apply Hunknown, known_category_name. exists c. exact E. Qed.

Lemma unknown_tests :
  bool_decide (category = "Underweight") = false
  /\ bool_decide (category = "Normal weight") = false
  /\ bool_decide (category = "Overweight") = false
  /\ bool_decide (category = "Obese") = false.
Proof.
  split; [| split; [| split]]; apply bool_decide_eq_false_2;
    [apply (unknown_neq Spec.Underweight) | apply (unknown_neq Spec.NormalWeight)
     | apply (unknown_neq Spec.Overweight) | apply (unknown_neq Spec.Obese)].
Qed.

Lemma unknown_base : base_recommendations !! category = None.
Proof.
  unfold base_recommendations, base_recommendations_items.
  rewrite !list_to_map_cons, list_to_map_nil.
  rewrite lookup_insert_ne by (symmetry; apply (unknown_neq Spec.Underweight)).
  rewrite lookup_insert_ne by (symmetry; apply (unknown_neq Spec.NormalWeight)).
  rewrite lookup_insert_ne by (symmetry; apply (unknown_neq Spec.Overweight)).
  rewrite lookup_insert_ne by (symmetry; apply (unknown_neq Spec.Obese)).
  apply lookup_empty.
Qed.

Lemma unknown_heavy_test :
  bool_decide (category ∈ ["Overweight"; "Obese"]) = false.
Proof.
  apply bool_decide_eq_false_2. rewrite !elem_of_cons, elem_of_nil.
  intros [E | [E | []]];
    [apply (unknown_neq Spec.Overweight E) | apply (unknown_neq Spec.Obese E)].
Qed.

Lemma unknown_age_adjustments (age : option Z) (recs : list string) :
  age_adjustments category age recs
  = if Py.and_then age (fun n => (n <? 18)%Z) then recs ++ [under18_msg] else recs.
Proof.
  unfold age_adjustments, Py.and_then.
  destruct age as [n |]; [| reflexivity].
  destruct (Py.truthy (Some n)); [| reflexivity].
  destruct unknown_tests as (Hu & Hn & _).
  rewrite Hu, Hn, unknown_heavy_test.
  destruct (65 <=? n)%Z eqn:Hold; [| reflexivity].
  apply Z.leb_le in Hold.
  rewrite (proj2 (Z.ltb_ge n 18)) by lia. reflexivity.
Qed.

Lemma unknown_gender_adjustments (gender : option string) (recs : list string) :
  gender_adjustments category gender recs = recs.
Proof.
  unfold gender_adjustments.
  destruct unknown_tests as (Hu & Hn & Ho & Hb).
  rewrite Hu, Hn, Ho, Hb.
  destruct (bool_decide (gender = Some "Female")); [reflexivity |].
  destruct (bool_decide (gender = Some "Male")); reflexivity.
Qed.

Lemma unknown_recommendations (age : option Z) (gender : option string) :
  get_health_recommendations category age gender
  = if Py.and_then age (fun n => (n <? 18)%Z) then [under18_msg] else [].
Proof.
  unfold get_health_recommendations.
  rewrite unknown_gender_adjustments, unknown_age_adjustments, unknown_base.
  reflexivity.
Qed.

End Unknown.

(** ** C9: an age of 0 *)

(** C9. The age guards treat an age of 0 as an absent age:
    [get_health_recommendations] gives the same list for age 0 and for no
    age, so the under-18 message is never appended for age 0, and
    [get_bmi_interpretation_note] for age 0 and Female consists of the
    pregnancy/menstrual-cycle note alone (no under-18 note). *)
Theorem age_zero_is_absent :
  (forall (category : string) (gender : option string),
      get_health_recommendations category (Some 0%Z) gender
      = get_health_recommendations category None gender)
  /\ (forall (category : string) (gender : option string),
         ~ In under18_msg (get_health_recommendations category (Some 0%Z) gender))
  /\ (forall bmi : Q,
         get_bmi_interpretation_note bmi (Some 0%Z) (Some "Female") = [female_note]
         /\ ~ In minor_note (get_bmi_interpretation_note bmi (Some 0%Z) (Some "Female"))).
Proof.
  split; [reflexivity |]. split.
  - intros category gender.
    destruct (decide (category ∈ Spec.known_categories)) as [Hin | Hout].
    + apply known_category_name in Hin as [c ->].
      unfold get_health_recommendations.
      rewrite gender_adjustments_spec, age_adjustments_spec, base_lookup.
      unfold Spec.gender_entries. simpl default.
      destruct (bool_decide (gender = Some "Female"));
        [| destruct (bool_decide (gender = Some "Male"))];
        destruct c; simpl; intros H;
        repeat destruct H as [H | H]; solve [discriminate H | destruct H].
    + rewrite (unknown_recommendations category Hout). simpl. tauto.
  - intros bmi. split; [reflexivity |].
    simpl. intros [H | []]. discriminate H.
Qed.

(** ** The store: allocation, copy and in-place append *)

Lemma alloc_spec (v : list string) (h : Heap.store) :
  exists l, h !! l = None /\ Heap.alloc v h = (l, <[l := v]> h).
Proof.
  exists (fresh (dom h)). split; [| reflexivity].
  apply not_elem_of_dom, is_fresh.
Qed.

(** Evaluating the dictionary display leaves the old objects alone and
    stores each value list in an object of its own. *)
Lemma dict_display_spec (items : list (string * list string)) (h : Heap.store) :
  exists d h',
    Heap.dict_display items h = (d, h')
    /\ h ⊆ h'
    /\ (forall k, d !! k = None -> (list_to_map items : gmap string (list string)) !! k = None)
    /\ (forall k l, d !! k = Some l ->
          h !! l = None
          /\ h' !! l = (list_to_map items : gmap string (list string)) !! k
          /\ is_Some (h' !! l)).
Proof.
  revert h. induction items as [| [k0 v0] items IH]; intros h.
  - exists ∅, h. split; [reflexivity |]. split; [reflexivity |].
    split; [intros k _; apply lookup_empty |].
    intros k l Hk. rewrite lookup_empty in Hk. discriminate Hk.
  - destruct (alloc_spec v0 h) as (l0 & Hfresh & Halloc).
    destruct (IH (<[l0 := v0]> h)) as (d & h' & Hrun & Hsub & Hnone & Hsome).
    exists (<[k0 := l0]> d), h'.
    split.
    { simpl. unfold mbind, Heap.M_bind. rewrite Halloc.
      unfold mbind, Heap.M_bind. rewrite Hrun. reflexivity. }
    assert (Hsub0 : h ⊆ <[l0 := v0]> h) by (apply insert_subseteq, Hfresh).
    split; [etrans; eassumption |].
    rewrite list_to_map_cons.
    split.
    + intros k Hk. destruct (decide (k0 = k)) as [-> | Hne].
      * rewrite lookup_insert_eq in Hk. discriminate Hk.
      * rewrite lookup_insert_ne in Hk by assumption.
        rewrite lookup_insert_ne by assumption. apply Hnone, Hk.
    + intros k l Hk. destruct (decide (k0 = k)) as [-> | Hne].
      * rewrite lookup_insert_eq in Hk. injection Hk as <-.
        rewrite lookup_insert_eq.
        assert (Hl0 : h' !! l0 = Some v0).
        { eapply lookup_weaken; [apply lookup_insert_eq | exact Hsub]. }
        rewrite Hl0. split; [exact Hfresh |]. split; [reflexivity | eexists; reflexivity].
      * rewrite lookup_insert_ne in Hk by assumption.
        rewrite lookup_insert_ne by assumption.
        destruct (Hsome k l Hk) as (Hnew & Hval & Hsom).
        split; [| split; assumption].
        eapply lookup_weaken_None; eassumption.
Qed.

Lemma heap_age_adjustments_spec
    (category : string) (age : option Z) (r : nat) (h : Heap.store) :
  Heap.age_adjustments category age r h = (tt, alter (age_adjustments category age) r h).
Proof.
  assert (Hskip : forall f : list string -> list string,
             (forall v, f v = v) -> Heap.skip h = (tt, alter f r h)).
  { intros f Hf. unfold Heap.skip, mret, Heap.M_ret.
    rewrite alter_id; [reflexivity | intros v _; apply Hf]. }
  unfold Heap.age_adjustments, age_adjustments.
  destruct age as [n |]; [| apply Hskip; reflexivity].
  repeat match goal with
    | |- context [if ?b then _ else _] => destruct b
    end; first [reflexivity | apply Hskip; reflexivity].
Qed.

Lemma heap_gender_adjustments_spec
    (category : string) (gender : option string) (r : nat) (h : Heap.store) :
  Heap.gender_adjustments category gender r h
  = (tt, alter (gender_adjustments category gender) r h).
Proof.
  assert (Hskip : forall f : list string -> list string,
             (forall v, f v = v) -> Heap.skip h = (tt, alter f r h)).
  { intros f Hf. unfold Heap.skip, mret, Heap.M_ret.
    rewrite alter_id; [reflexivity | intros v _; apply Hf]. }
  unfold Heap.gender_adjustments, gender_adjustments.
  repeat match goal with
    | |- context [if ?b then _ else _] => destruct b
    end; first [reflexivity | apply Hskip; reflexivity].
Qed.

(** The body allocates two objects, the default [[]] and the copy; the
    copy is the one returned and the only one the appends touch. *)
Lemma recommend_spec
    (tbl : gmap string nat) (category : string) (age : option Z)
    (gender : option string) (h : Heap.store) :
  exists e r,
    h !! e = None /\ h !! r = None /\ e <> r
    /\ Heap.recommend tbl category age gender h
       = (r, <[r := gender_adjustments category gender
                       (age_adjustments category age
                          (default [] (<[e := []]> h !! default e (tbl !! category))))]>
               (<[e := []]> h)).
Proof.
  destruct (alloc_spec [] h) as (e & He & Halloc).
  set (found := default e (tbl !! category)).
  destruct (alloc_spec (default [] (<[e := []]> h !! found)) (<[e := []]> h))
    as (r & Hr & Hcopy).
  exists e, r.
  assert (Hne : e <> r).
  { intros ->. rewrite lookup_insert_eq in Hr. discriminate Hr. }
  split; [exact He |]. split.
  { rewrite lookup_insert_ne in Hr by exact Hne. exact Hr. }
  split; [exact Hne |].
  unfold Heap.recommend, mbind, Heap.M_bind. rewrite Halloc.
  fold found. unfold Heap.copy. rewrite Hcopy.
  rewrite heap_age_adjustments_spec, heap_gender_adjustments_spec.
  unfold mret, Heap.M_ret. rewrite !alter_insert_eq. reflexivity.
Qed.

(** ** C10: categories outside the table, and the copy *)

(** C10. [get_health_recommendations] is total on category strings: for
    a category outside the four names the table has no entry, the base
    list is empty and the result is the under-18 message alone when that
    age branch applies and the empty list otherwise, whatever the gender.
    In the store, for every category, the list returned is a new object
    holding the result; it is none of the objects of the base table, so
    the table still holds the fixed base lists after the call and after
    any later update of the returned list. *)
Theorem unknown_category_and_copy :
  (forall (category : string) (age : option Z) (gender : option string),
      category ∉ Spec.known_categories ->
      base_recommendations !! category = None
      /\ get_health_recommendations category age gender
         = if Py.and_then age (fun n => (n <? 18)%Z) then [under18_msg] else [])
  /\ (forall (category : string) (age : option Z) (gender : option string)
             (h : Heap.store),
         exists tbl h1 r h2,
           Heap.dict_display base_recommendations_items h = (tbl, h1)
           /\ Heap.recommend tbl category age gender h1 = (r, h2)
           /\ Heap.get_health_recommendations category age gender h = (r, h2)
           /\ h !! r = None
           /\ h2 !! r = Some (get_health_recommendations category age gender)
           /\ (forall k, is_Some (tbl !! k) <-> is_Some (base_recommendations !! k))
           /\ (forall k l, tbl !! k = Some l ->
                 l <> r
                 /\ h2 !! l = base_recommendations !! k
                 /\ forall v, <[r := v]> h2 !! l = base_recommendations !! k)).
Proof.
  split.
  { intros category age gender Hunknown.
    split; [apply unknown_base | apply unknown_recommendations]; assumption. }
  intros category age gender h.
  destruct (dict_display_spec base_recommendations_items h)
    as (tbl & h1 & Hrun & Hsub & Hnone & Hsome).
  destruct (recommend_spec tbl category age gender h1)
    as (e & r & He & Hr & Hne & Hrec).
  fold base_recommendations in Hnone, Hsome.
  assert (Hcell : forall k l, tbl !! k = Some l ->
            l <> e /\ l <> r /\ h1 !! l = base_recommendations !! k).
  { intros k l Hk. destruct (Hsome k l Hk) as (_ & Hval & [v Hv]).
    split; [| split; [| exact Hval]]; intros ->; congruence. }
  eexists tbl, h1, r, _.
  split; [exact Hrun |]. split; [exact Hrec |].
  split.
  { unfold Heap.get_health_recommendations, mbind, Heap.M_bind.
    rewrite Hrun. exact Hrec. }
  split; [eapply lookup_weaken_None; eassumption |].
  split.
  { rewrite lookup_insert_eq. unfold get_health_recommendations.
    do 3 f_equal.
    destruct (tbl !! category) as [l |] eqn:Hk; simpl default.
    - destruct (Hcell category l Hk) as (Hle & _ & Hval).
      rewrite lookup_insert_ne by congruence. rewrite Hval. reflexivity.
    - rewrite lookup_insert_eq, (Hnone category Hk). reflexivity. }
  split.
  { intros k. split.
    - intros [l Hk]. destruct (Hsome k l Hk) as (_ & Hval & Hsom).
      rewrite <- Hval. exact Hsom.
    - intros Hbase. destruct (tbl !! k) as [l |] eqn:Hk; [eexists; reflexivity |].
      rewrite (Hnone k Hk) in Hbase. destruct Hbase as [v Hv]. discriminate Hv. }
  intros k l Hk. destruct (Hcell k l Hk) as (Hle & Hlr & Hval).
  split; [exact Hlr |].
  split; [| intros v; rewrite lookup_insert_ne by congruence];
    rewrite !lookup_insert_ne by congruence; exact Hval.
Qed.

Lemma unknown_category_and_copy_witness :
  base_recommendations !! "Athletic" = None
  /\ get_health_recommendations "Athletic" (Some 12%Z) (Some "Female") = [under18_msg].
Proof.
  apply (proj1 unknown_category_and_copy "Athletic" (Some 12%Z) (Some "Female")).
  apply (bool_decide_unpack _). vm_compute. exact I.
Defined.

(** The store model run from the empty store on a category of the table:
    the table objects are 0 to 3, the default [[]] is 4, and the result
    is the new object 5 with the appended entries; object 3 still holds
    the four base entries. *)
Example heap_run_obese :
  let '(r, h) := Heap.get_health_recommendations "Obese" (Some 70%Z) (Some "Male") ∅ in
  r = 5%nat
  /\ h !! r = Some (Spec.base Spec.Obese ++ [older_heavy_msg; male_heavy_msg])
  /\ h !! 3%nat = Some (Spec.base Spec.Obese).
Proof. vm_compute. repeat split. Qed.


(** * Further properties of the engine and of the script *)

(** ** Shared facts *)

(** The four outcomes of [classify_bmi], each with its bracket. *)
Lemma classify_bmi_cases (bmi : Q) :
  (bmi < 18.5 /\ classify_bmi bmi = ("Underweight", "🔵"))
  \/ (18.5 <= bmi < 25 /\ classify_bmi bmi = ("Normal weight", "🟢"))
  \/ (25 <= bmi < 30 /\ classify_bmi bmi = ("Overweight", "🟡"))
  \/ (30 <= bmi /\ classify_bmi bmi = ("Obese", "🔴")).
Proof.
  unfold classify_bmi.
  destruct (Qlt_le_dec bmi 18.5) as [H1 | H1].
  { left. split; [exact H1 |]. settle_tests. reflexivity. }
  destruct (Qlt_le_dec bmi 25) as [H2 | H2].
  { right; left. split; [split; assumption |]. settle_tests. reflexivity. }
  destruct (Qlt_le_dec bmi 30) as [H3 | H3].
  { right; right; left. split; [split; assumption |]. settle_tests. reflexivity. }
  right; right; right. split; [exact H3 |]. settle_tests. reflexivity.
Qed.

Lemma classify_bmi_known (bmi : Q) :
  exists c, (classify_bmi bmi).1 = Spec.name c.
Proof.
  destruct (classify_bmi_cases bmi) as [[_ E] | [[_ E] | [[_ E] | [_ E]]]];
    rewrite E;
    [exists Spec.Underweight | exists Spec.NormalWeight
     | exists Spec.Overweight | exists Spec.Obese]; reflexivity.
Qed.

Lemma age_entries_length (c : Spec.Category) (age : option Z) :
  (length (Spec.age_entries c age) <= 1)%nat.
Proof.
  unfold Spec.age_entries. destruct age as [a |]; [| simpl; lia].
  destruct (65 <=? a)%Z; [destruct c; simpl; lia |].
  destruct (a <? 18)%Z; simpl; lia.
Qed.

Lemma gender_entries_length (c : Spec.Category) (gender : option string) :
  (length (Spec.gender_entries c gender) <= 1)%nat.
Proof.
  unfold Spec.gender_entries.
  destruct (bool_decide (gender = Some "Female"));
    [| destruct (bool_decide (gender = Some "Male"))];
    destruct c; simpl; lia.
Qed.

(** The result on a category of the table, as base list and entries. *)
Lemma recommendations_known (c : Spec.Category) (age : option Z) (gender : option string) :
  get_health_recommendations (Spec.name c) age gender
  = Spec.base c ++ Spec.age_entries c (Spec.present_age age)
      ++ Spec.gender_entries c gender.
Proof.
  unfold get_health_recommendations.
  rewrite gender_adjustments_spec, age_adjustments_spec, base_lookup.
  simpl default. symmetry. apply (assoc_L (++)).
Qed.

(** ** classify_bmi feeding get_health_recommendations *)

(** X1. Whatever the number, [classify_bmi] returns one of four fixed
    pairs of a category and its symbol, and the category is a key of the
    base table; so the recommendations derived from a classified BMI
    always start with four base entries and have 4 to 6 entries. *)
Theorem classified_category_has_recommendations
    (bmi : Q) (age : option Z) (gender : option string) :
  classify_bmi bmi
    ∈ [("Underweight", "🔵"); ("Normal weight", "🟢");
       ("Overweight", "🟡"); ("Obese", "🔴")]
  /\ (classify_bmi bmi).1 ∈ Spec.known_categories
  /\ is_Some (base_recommendations !! (classify_bmi bmi).1)
  /\ (4 <= length (get_health_recommendations (classify_bmi bmi).1 age gender) <= 6)%nat.
Proof.
  split.
  { rewrite !elem_of_cons.
    destruct (classify_bmi_cases bmi) as [[_ E] | [[_ E] | [[_ E] | [_ E]]]];
      rewrite E; tauto. }
  destruct (classify_bmi_known bmi) as [c ->].
  split; [apply known_category_name; exists c; reflexivity |].
  split; [rewrite base_lookup; eexists; reflexivity |].
  rewrite recommendations_known, !length_app, base_length.
  pose proof (age_entries_length c (Spec.present_age age)).
  pose proof (gender_entries_length c gender). lia.
Qed.

(** X2. [classify_bmi] is monotone: a larger BMI never gets a lighter
    category. *)
Theorem classify_bmi_monotone (bmi1 bmi2 : Q) :
  bmi1 <= bmi2 ->
  (category_rank (classify_bmi bmi1).1 <= category_rank (classify_bmi bmi2).1)%nat.
Proof.
  intros Hle.
  destruct (classify_bmi_cases bmi1) as [[H1 E1] | [[H1 E1] | [[H1 E1] | [H1 E1]]]];
    destruct (classify_bmi_cases bmi2) as [[H2 E2] | [[H2 E2] | [[H2 E2] | [H2 E2]]]];
    rewrite E1, E2;
    first [ vm_compute; lia | exfalso; destruct_and?; lra ].
Qed.

Lemma classify_bmi_monotone_witness :
  (category_rank (classify_bmi 22).1 <= category_rank (classify_bmi 27).1)%nat.
Proof. apply (classify_bmi_monotone 22 27). unfold Qle. simpl. lia. Defined.

(** ** Interpretation notes exclude each other *)

Lemma notes_present (bmi : Q) (age : option Z) (gender : option string) :
  get_bmi_interpretation_note bmi age gender
  = Spec.deriveInterpretationNotes (Spec.present_age age) gender.
Proof.
  unfold get_bmi_interpretation_note, Spec.deriveInterpretationNotes, Py.append.
  rewrite !and_then_present, !or_else_present, female_gate.
  destruct (Spec.present_age age) as [a |]; simpl default;
    repeat match goal with
      | |- context [if ?b then _ else _] => destruct b
      end; reflexivity.
Qed.

Lemma notes_decision_list (bmi : Q) (age : option Z) (gender : option string) :
  get_bmi_interpretation_note bmi age gender
  = match Spec.present_age age with
    | Some a =>
        if (65 <=? a)%Z then [older_note]
        else if (a <? 18)%Z then [minor_note]
        else if bool_decide (gender = Some "Female") && (a <=? 50)%Z then [female_note]
        else []
    | None => if bool_decide (gender = Some "Female") then [female_note] else []
    end.
Proof.
  rewrite notes_present. unfold Spec.deriveInterpretationNotes.
  destruct (Spec.present_age age) as [a |]; simpl default.
  - rewrite <- female_gate.
    destruct (bool_decide (gender = Some "Female"));
      destruct (Z.leb_spec 65 a), (Z.ltb_spec a 18),
        (Z.leb_spec 18 a), (Z.leb_spec a 50);
      simpl; first [reflexivity | lia].
  - rewrite <- (female_gate gender 30).
    destruct (bool_decide (gender = Some "Female")); reflexivity.
Qed.

Lemma notes_length (bmi : Q) (age : option Z) (gender : option string) :
  (length (get_bmi_interpretation_note bmi age gender) <= 1)%nat.
Proof.
  rewrite notes_decision_list.
  destruct (Spec.present_age age) as [a |];
    repeat match goal with
      | |- context [if ?b then _ else _] => destruct b
      end; simpl; lia.
Qed.

(** X8. The three gates of [get_bmi_interpretation_note] exclude each
    other, so the result never has more than one note: the 65-and-over
    note, else the under-18 note, else the Female note (for an age up to
    50, or with no age or age 0), else nothing. *)
Theorem at_most_one_note (bmi : Q) (age : option Z) (gender : option string) :
  (length (get_bmi_interpretation_note bmi age gender) <= 1)%nat
  /\ get_bmi_interpretation_note bmi age gender
     = match Spec.present_age age with
       | Some a =>
           if (65 <=? a)%Z then [older_note]
           else if (a <? 18)%Z then [minor_note]
           else if bool_decide (gender = Some "Female") && (a <=? 50)%Z then [female_note]
           else []
       | None => if bool_decide (gender = Some "Female") then [female_note] else []
       end.
Proof. split; [apply notes_length | apply notes_decision_list]. Qed.

(** ** The values the script hands to the engine *)

Lemma age_val_present (age : Z) : Spec.present_age (App.age_val age) = App.age_val age.
Proof.
  unfold App.age_val. destruct (Z.ltb_spec 0 age) as [Hpos | Hneg]; [| reflexivity].
  apply present_age_nonzero. lia.
Qed.

(** X9. The script passes [None] for an age that is not positive and
    the age itself otherwise, so the engine never sees an age of 0 from
    it; on these arguments the recommendations and the notes are exactly
    those of the specification, with no special case for 0. *)
Theorem script_arguments_match_specification
    (c : Spec.Category) (bmi : Q) (age : Z) (gender : string) :
  (App.age_val age = None <-> (age <= 0)%Z)
  /\ (forall n, App.age_val age = Some n -> n = age /\ (0 < n)%Z)
  /\ get_health_recommendations (Spec.name c) (App.age_val age) (App.gender_val gender)
     = Spec.deriveRecommendations c (App.age_val age) (App.gender_val gender)
  /\ get_bmi_interpretation_note bmi (App.age_val age) (App.gender_val gender)
     = Spec.deriveInterpretationNotes (App.age_val age) (App.gender_val gender).
Proof.
  split; [| split; [| split]].
  - unfold App.age_val. destruct (Z.ltb_spec 0 age); split; intros; first [lia | congruence].
  - unfold App.age_val. intros n. destruct (Z.ltb_spec 0 age); intros [= <-]. lia.
  - rewrite recommendations_known, age_val_present. reflexivity.
  - rewrite notes_present, age_val_present. reflexivity.
Qed.

Lemma script_arguments_match_specification_witness :
  (42%Z = 42%Z /\ (0 < 42)%Z).
Proof.
  apply (proj1 (proj2 (script_arguments_match_specification
                         Spec.Obese 31 42%Z "Male")) 42%Z).
  reflexivity.
Defined.

(** ** The BMI scale *)

(** X13. For every BMI the scale shows its four rows in order with
    exactly one of them marked, the row of the category returned by
    [classify_bmi]: the names used by the scale and by the classifier
    agree. *)
Theorem scale_marks_one_row (bmi : Q) :
  exists i range,
    App.scale_data !! i = Some ((classify_bmi bmi).1, range)
    /\ App.scale_rows (classify_bmi bmi).1
       = <[i := App.marked_row (classify_bmi bmi).1 range]>
           (map (fun '(cat, range) => App.plain_row cat range) App.scale_data).
Proof.
  destruct (classify_bmi_cases bmi) as [[_ E] | [[_ E] | [[_ E] | [_ E]]]];
    rewrite E;
    [exists 0%nat | exists 1%nat | exists 2%nat | exists 3%nat];
    eexists; (split; [reflexivity | vm_compute; reflexivity]).
Qed.

(** ** The chart *)

Lemma chart_shapes (now : Z) (current_bmi : Q) (bmi_history_df : list (Z * Q)) :
  Chart.shapes (Chart.create_bmi_chart now current_bmi bmi_history_df)
  = [Chart.band 0 18.5 "lightblue"; Chart.band 18.5 25 "lightgreen";
     Chart.band 25 30 "lightyellow"; Chart.band 30 45 "lightcoral"].
Proof. destruct bmi_history_df; reflexivity. Qed.

(** The category of the values of each band. *)
Lemma band_category (b : Q) :
  (0 <= b < 18.5 -> (classify_bmi b).1 = "Underweight")
  /\ (18.5 <= b < 25 -> (classify_bmi b).1 = "Normal weight")
  /\ (25 <= b < 30 -> (classify_bmi b).1 = "Overweight")
  /\ (30 <= b < 45 -> (classify_bmi b).1 = "Obese").
Proof.
  split; [| split; [| split]]; intros [Hlo Hhi];
    destruct (classify_bmi_cases b) as [[H E] | [[H E] | [[H E] | [H E]]]];
    rewrite E; first [reflexivity | exfalso; destruct_and?; lra].
Qed.

(** Rewrites the category of a value known to lie in one of the bands. *)
Ltac band_categories :=
  repeat match goal with
    | H : _ <= ?b < _ |- context [classify_bmi ?b] =>
        first [ rewrite (proj1 (band_category b) H)
              | rewrite (proj1 (proj2 (band_category b)) H)
              | rewrite (proj1 (proj2 (proj2 (band_category b))) H)
              | rewrite (proj2 (proj2 (proj2 (band_category b))) H) ]
    end.

(** X14. The four background bands of the chart do not depend on the
    data plotted; they cover exactly the BMI values from 0 up to 45, and
    they follow the classification: two values lie in the same band
    exactly when, being both in some band, they have the same
    category. *)
Theorem chart_bands_follow_classification
    (now : Z) (current_bmi : Q) (bmi_history_df : list (Z * Q)) :
  let fig := Chart.create_bmi_chart now current_bmi bmi_history_df in
  (forall b : Q,
      (exists s, s ∈ Chart.shapes fig /\ Chart.y0 s <= b < Chart.y1 s)
      <-> 0 <= b < 45)
  /\ (forall (s : Chart.shape) (b1 b2 : Q),
         s ∈ Chart.shapes fig ->
         Chart.y0 s <= b1 < Chart.y1 s -> Chart.y0 s <= b2 < Chart.y1 s ->
         (classify_bmi b1).1 = (classify_bmi b2).1)
  /\ (forall (s1 s2 : Chart.shape) (b1 b2 : Q),
         s1 ∈ Chart.shapes fig -> s2 ∈ Chart.shapes fig ->
         Chart.y0 s1 <= b1 < Chart.y1 s1 -> Chart.y0 s2 <= b2 < Chart.y1 s2 ->
         (classify_bmi b1).1 = (classify_bmi b2).1 ->
         s1 = s2).
Proof.
  intros fig. unfold fig. rewrite chart_shapes.
  split; [| split].
  - intros b. split.
    + intros (s & Hs & Hb). revert Hs Hb.
      rewrite !elem_of_cons, elem_of_nil.
      intros [-> | [-> | [-> | [-> | []]]]]; simpl; intros [Hlo Hhi]; split; lra.
    + intros [Hlo Hhi].
      destruct (Qlt_le_dec b 18.5);
        [exists (Chart.band 0 18.5 "lightblue") |
         destruct (Qlt_le_dec b 25);
         [exists (Chart.band 18.5 25 "lightgreen") |
          destruct (Qlt_le_dec b 30);
          [exists (Chart.band 25 30 "lightyellow")
          | exists (Chart.band 30 45 "lightcoral")]]];
        (split; [rewrite !elem_of_cons; tauto | simpl; split; assumption]).
  - intros s b1 b2 Hs. revert Hs. rewrite !elem_of_cons, elem_of_nil.
    intros [-> | [-> | [-> | [-> | []]]]]; simpl; intros H1 H2;
      band_categories; reflexivity.
  - intros s1 s2 b1 b2 Hs1 Hs2.
    apply list_elem_of_In in Hs1, Hs2. simpl in Hs1, Hs2.
    destruct Hs1 as [<- | [<- | [<- | [<- | []]]]];
      destruct Hs2 as [<- | [<- | [<- | [<- | []]]]];
      simpl; intros H1 H2; band_categories;
      first [reflexivity | discriminate].
Qed.

Lemma chart_bands_follow_classification_witness :
  (classify_bmi 20).1 = (classify_bmi 24).1 /\ 0 <= 20 < 45.
Proof.
  destruct (chart_bands_follow_classification 0%Z 22 []) as (Hcover & Hsame & _).
  assert (Hin : Chart.band 18.5 25 "lightgreen"
                  ∈ Chart.shapes (Chart.create_bmi_chart 0%Z 22 []))
    by (apply list_elem_of_In; simpl; right; left; reflexivity).
  split.
  - apply (Hsame (Chart.band 18.5 25 "lightgreen") 20 24 Hin);
      simpl; split; unfold Qle, Qlt; simpl; lia.
  - apply (Hcover 20). exists (Chart.band 18.5 25 "lightgreen").
    split; [exact Hin | simpl; split; unfold Qle, Qlt; simpl; lia].
Defined.

(** ** Calls of get_health_recommendations in the store *)

(** One call: the old objects are untouched and the result is new. *)
Lemma heap_call_spec
    (category : string) (age : option Z) (gender : option string) (h : Heap.store) :
  exists r h2,
    Heap.get_health_recommendations category age gender h = (r, h2)
    /\ h ⊆ h2
    /\ h !! r = None
    /\ h2 !! r = Some (get_health_recommendations category age gender).
Proof.
  destruct (dict_display_spec base_recommendations_items h)
    as (tbl & h1 & Hrun & Hsub & Hnone & Hsome).
  destruct (recommend_spec tbl category age gender h1)
    as (e & r & He & Hr & Hne & Hrec).
  fold base_recommendations in Hnone, Hsome.
  eexists r, _. split.
  { unfold Heap.get_health_recommendations, mbind, Heap.M_bind.
    rewrite Hrun. exact Hrec. }
  split.
  { etrans; [exact Hsub |]. etrans; [apply (insert_subseteq h1 e []), He |].
    apply insert_subseteq. rewrite lookup_insert_ne by exact Hne. exact Hr. }
  split; [eapply lookup_weaken_None; eassumption |].
  rewrite lookup_insert_eq. unfold get_health_recommendations. do 3 f_equal.
  destruct (tbl !! category) as [l |] eqn:Hk; simpl default.
  - destruct (Hsome category l Hk) as (_ & Hval & [v Hv]).
    rewrite lookup_insert_ne by congruence. rewrite Hval. reflexivity.
  - rewrite lookup_insert_eq, (Hnone category Hk). reflexivity.
Qed.

(** X15. A call of [get_health_recommendations] changes no list object
    that existed before it, and its result is a new object.  Hence after
    any update of a returned list, a later call (with any arguments)
    returns a different object with the regular contents and leaves the
    updated list as it is: results of different calls never share
    state. *)
Theorem calls_share_no_state
    (category : string) (age : option Z) (gender : option string) (h : Heap.store) :
  exists r h2,
    Heap.get_health_recommendations category age gender h = (r, h2)
    /\ h ⊆ h2
    /\ h !! r = None
    /\ forall (category' : string) (age' : option Z) (gender' : option string)
              (v : list string),
         exists r' h3,
           Heap.get_health_recommendations category' age' gender' (<[r := v]> h2)
           = (r', h3)
           /\ r' <> r
           /\ h3 !! r = Some v
           /\ h3 !! r' = Some (get_health_recommendations category' age' gender').
Proof.
  destruct (heap_call_spec category age gender h) as (r & h2 & Hrun & Hsub & Hnew & Hres).
  exists r, h2. split; [exact Hrun |]. split; [exact Hsub |]. split; [exact Hnew |].
  intros category' age' gender' v.
  destruct (heap_call_spec category' age' gender' (<[r := v]> h2))
    as (r' & h3 & Hrun' & Hsub' & Hnew' & Hres').
  exists r', h3. split; [exact Hrun' |].
  split; [intros ->; rewrite lookup_insert_eq in Hnew'; discriminate Hnew' |].
  split; [| exact Hres'].
  eapply lookup_weaken; [apply lookup_insert_eq | exact Hsub'].
Qed.

(** ** No repeated recommendation *)

(** X16. For every category string, age and gender, the list returned by
    [get_health_recommendations] has no repeated entry. *)
Theorem recommendations_no_duplicates
    (category : string) (age : option Z) (gender : option string) :
  NoDup (get_health_recommendations category age gender).
Proof.
  destruct (decide (category ∈ Spec.known_categories)) as [Hin | Hout].
  - apply known_category_name in Hin as [c ->].
    rewrite recommendations_known.
    unfold Spec.age_entries, Spec.gender_entries.
    destruct (Spec.present_age age) as [a |];
      repeat match goal with
        | |- context [if ?b then _ else _] => destruct b
        end;
      destruct c; apply (bool_decide_unpack _); vm_compute; exact I.
  - rewrite (unknown_recommendations category Hout).
    destruct (Py.and_then _ _); [apply NoDup_singleton | apply NoDup_nil_2].
Qed.

(** ** Imperial heights on doubles *)

Lemma imperial_heights_table :
  forallb
    (fun t =>
       match Double.convert_height_to_meters 0 t "Imperial" with
       | Py.Return h =>
           (0.30479999999999996 <=? h)%float && (h <=? 2.7178)%float
           && (0 <? h)%float
           && match Double.calculate_ideal_weight_range h with
              | Py.Return (lo, hi) => (0 <? lo)%float && (lo <? hi)%float
              | Py.Raise _ => false
              end
       | Py.Raise _ => false
       end)
    (seqZ 12 96) = true.
Proof. vm_compute. reflexivity. Qed.

(** X17. For every height the feet and inches widgets offer (1 to 8
    feet, 0 to 11 inches), [convert_height_to_meters] on doubles raises
    no exception and returns a positive height between
    0.30479999999999996 and 2.7178 meters, and
    [calculate_ideal_weight_range] of that height raises no exception
    and returns a range with 0 < min < max. *)
Theorem imperial_heights_on_doubles (feet inches : Z) :
  (1 <= feet <= 8)%Z -> (0 <= inches <= 11)%Z ->
  exists h lo hi : float,
    Double.convert_height_to_meters feet inches "Imperial" = Py.Return h
    /\ (0.30479999999999996 <=? h)%float = true
    /\ (h <=? 2.7178)%float = true
    /\ (0 <? h)%float = true
    /\ Double.calculate_ideal_weight_range h = Py.Return (lo, hi)
    /\ (0 <? lo)%float = true
    /\ (lo <? hi)%float = true.
Proof.
  intros Hf Hi. rewrite convert_height_total_inches.
  pose proof imperial_heights_table as Htable.
  rewrite forallb_forall in Htable.
  specialize (Htable (feet * 12 + inches)%Z).
  assert (Hin : In (feet * 12 + inches)%Z (seqZ 12 96))
    by (apply list_elem_of_In, elem_of_seqZ; lia).
  apply Htable in Hin. clear Htable.
  destruct (Double.convert_height_to_meters 0 (feet * 12 + inches) "Imperial")
    as [h | e]; [| discriminate Hin].
  apply andb_true_iff in Hin as [Hin Hrange].
  apply andb_true_iff in Hin as [Hin Hpos].
  apply andb_true_iff in Hin as [Hlow Hhigh].
  destruct (Double.calculate_ideal_weight_range h) as [[lo hi] | e] eqn:Hcall;
    [| discriminate Hrange].
  apply andb_true_iff in Hrange as [Hmin Hmax].
  exists h, lo, hi.
  split; [reflexivity |]. split; [exact Hlow |]. split; [exact Hhigh |].
  split; [exact Hpos |]. split; [exact Hcall |]. split; [exact Hmin | exact Hmax].
Qed.

Lemma imperial_heights_on_doubles_witness :
  exists h lo hi : float,
    Double.convert_height_to_meters 5 8 "Imperial" = Py.Return h
    /\ (0.30479999999999996 <=? h)%float = true
    /\ (h <=? 2.7178)%float = true
    /\ (0 <? h)%float = true
    /\ Double.calculate_ideal_weight_range h = Py.Return (lo, hi)
    /\ (0 <? lo)%float = true
    /\ (lo <? hi)%float = true.
Proof. apply (imperial_heights_on_doubles 5 8); lia. Defined.
